(** * Cross-validation notebook (aisp/nb4_cross_validation.ipynb)

    The notebook is parameter plumbing around pandas, numpy and scikit-learn:
    it loads a CSV file, calls pre-built splitters through the helper
    [rate_accuracy], prints accuracy statistics and runs a grid search.

    The development has three layers.
    - [Py]: the fragment of Python the notebook relies on (binary64 floats,
      the [%] formatting operator, exceptions).
    - The program: every cell of the notebook as a computation in a
      state-and-exception monad.  A call into a third-party library is an
      event answered by a [library] handler; the trace of events records what
      the notebook asked and what it was answered.
    - [Lib]: a reference semantics for the library calls the notebook makes,
      following the documentation of pandas, numpy and scikit-learn, used to
      run the notebook on concrete data. *)

From Stdlib Require Import ZArith Ascii Floats Lia.
From stdpp Require Import base option list strings gmap pretty.

Local Open Scope Z_scope.
Local Open Scope string_scope.
Local Open Scope list_scope.
Set Warnings "-inexact-float".

(** ** Python values and formatting *)

Module Py.

(** An exception: its class name and its message. *)
Inductive exn : Type := Exception (cls msg : string).

(** The result of evaluating an expression or calling a function. *)
Inductive outcome (A : Type) : Type :=
| Returned (a : A)
| Raised (e : exn).
Arguments Returned {A} a.
Arguments Raised {A} e.

(** [bool(shuffle)] for [shuffle: Optional[bool]]. *)
Definition truthy (v : option bool) : bool :=
  match v with
  | Some true => true
  | Some false | None => false
  end.

(** The integer nearest to [m * 2^e * 100], ties to even: the digits that
    [%0.2f] prints are those of the exact binary value, correctly rounded. *)
Definition hundredths (m : positive) (e : Z) : Z :=
  if (0 <=? e)%Z then Z.pos m * 2 ^ e * 100
  else
    let d := 2 ^ (- e) in
    let n := Z.pos m * 100 in
    let q := n / d in
    match (2 * (n mod d)) ?= d with
    | Lt => q
    | Gt => q + 1
    | Eq => if Z.even q then q else q + 1
    end.

Definition two_digits (n : Z) : string :=
  if (n <? 10)%Z then "0" +:+ pretty n else pretty n.

(** ["%0.2f" % x] *)
Definition format_f2 (x : float) : string :=
  match Prim2SF x with
  | S754_nan => "nan"
  | S754_infinity s => if s then "-inf" else "inf"
  | S754_zero s => if s then "-0.00" else "0.00"
  | S754_finite s m e =>
      let h := hundredths m e in
      (if s then "-" else "") +:+ pretty (h / 100) +:+ "." +:+ two_digits (h mod 100)
  end.

(** An argument of the [%] operator. *)
Inductive farg : Type :=
| FStr (s : string)
| FFloat (x : float).

(** [fmt % args] for the two directives the notebook uses: [%s] applied to
    a string and [%0.2f] applied to a float.  [None] covers every other
    combination: Python raises [TypeError] when the arguments do not fit the
    directives (too few, too many, a string under [%0.2f]); other
    directives, and [%s] applied to a float, are outside the modelled
    fragment. *)
Fixpoint format (fmt : string) (args : list farg) : option string :=
  match fmt with
  | EmptyString =>
      match args with
      | [] => Some ""
      | _ :: _ => None
      end
  | String "%"%char (String "s"%char rest) =>
      match args with
      | FStr s :: args' => String.append s <$> format rest args'
      | _ => None
      end
  | String "%"%char (String "0"%char (String "."%char (String "2"%char (String "f"%char rest)))) =>
      match args with
      | FFloat x :: args' => String.append (format_f2 x) <$> format rest args'
      | _ => None
      end
  | String "%"%char _ => None
  | String c rest => (String c) <$> format rest args
  end.

End Py.
Export Py.

(** ** The library interface *)

(** A reference to an object created by a library (a data frame, an
    estimator, a splitter, an array). *)
Definition obj : Type := N.
Bind Scope N_scope with obj.

(** The splitter classes the notebook imports. *)
Inductive Validator : Type := KFold | StratifiedKFold | StratifiedShuffleSplit.

(** Scalars passed as keyword arguments and as hyperparameter candidates. *)
Inductive pyval : Type :=
| PNone
| PBool (b : bool)
| PInt (z : Z)
| PFloat (x : float)
| PStr (s : string).

(** Keyword arguments of a call, in the order they are written. *)
Definition kwargs : Type := list (string * pyval).

(** A hyperparameter grid: a dict from parameter name to a tuple of
    candidates, in insertion order. *)
Definition grid : Type := list (string * list pyval).

(** One combination of hyperparameters. *)
Definition params : Type := list (string * pyval).

(** A positional indexer of [DataFrame.iloc]. *)
Inductive indexer : Type :=
| Slice (start stop : option Z)
| At (i : Z).

(** The calls the notebook makes into pandas, numpy and scikit-learn. *)
Inductive call : Type :=
| read_csv (path : string)
| DataFrame_head (df : obj)
| DataFrame_iloc (df : obj) (rows cols : indexer)
| RandomForestClassifier
| construct (validator : Validator) (kw : kwargs)
| cross_val_score (estimator x y : obj) (cv : obj) (scoring : string)
| ndarray_mean (a : obj)
| ndarray_std (a : obj)
| train_test_split (x y : obj) (test_size : float) (random_state : Z)
| GridSearchCV (estimator : obj) (param_grid : grid)
| GridSearchCV_fit (gs x y : obj)
| GridSearchCV_best_params_ (gs : obj)
| GridSearchCV_score (gs x y : obj).

(** What each call returns when it does not raise. *)
Definition ret (c : call) : Type :=
  match c with
  | ndarray_mean _ | ndarray_std _ | GridSearchCV_score _ _ _ => float
  | train_test_split _ _ _ _ => obj * obj * obj * obj
  | GridSearchCV_best_params_ _ => params
  | _ => obj
  end.

(** What a notebook cell shows for its last expression. *)
Inductive shown : Type :=
| ShowObj (o : obj)
| ShowParams (p : params)
| ShowFloat (x : float).

(** What the notebook does that can be observed from outside. *)
Inductive event : Type :=
| Called (c : call) (r : outcome (ret c))
| Printed (line : string)
| Displayed (v : shown).

(** A notebook-level variable holds an object or a dict literal. *)
Inductive value : Type :=
| VObj (o : obj)
| VDict (g : grid).

(** ** The notebook as a program *)

Section Program.

Context {W : Type}.

(** The libraries: each call is answered from the library's own state [W]
    (object store, global random generator, file system). *)
Definition library : Type := forall c : call, W -> outcome (ret c) * W.

Record state : Type := State {
  globals : gmap string value;
  world : W;
  trace : list event;
}.

Definition M (A : Type) : Type := library -> state -> outcome A * state.

#[export] Instance M_ret : MRet M := fun A a _ s => (Returned a, s).

#[export] Instance M_bind : MBind M := fun A B k m lib s =>
  match m lib s with
  | (Returned a, s') => k a lib s'
  | (Raised e, s') => (Raised e, s')
  end.

Definition raise {A} (e : exn) : M A := fun _ s => (Raised e, s).

(** [try: body except Exception as e: handler e].  The notebook has no
    such statement; the combinator shows what one would be. *)
Definition try_except {A} (body : M A) (handler : exn -> M A) : M A :=
  fun lib s =>
    match body lib s with
    | (Returned a, s') => (Returned a, s')
    | (Raised e, s') => handler e lib s'
    end.

Definition emit (ev : event) (s : state) : state :=
  State (globals s) (world s) (trace s ++ [ev]).

Definition lib_call (c : call) : M (ret c) := fun lib s =>
  let '(r, w) := lib c (world s) in
  (r, State (globals s) w (trace s ++ [Called c r])).

Definition print (line : string) : M unit := fun _ s =>
  (Returned tt, emit (Printed line) s).

Definition display (v : shown) : M unit := fun _ s =>
  (Returned tt, emit (Displayed v) s).

Definition assign (name : string) (v : value) : M unit := fun _ s =>
  (Returned tt, State (<[name := v]> (globals s)) (world s) (trace s)).

Definition NameError (name : string) : exn :=
  Exception "NameError" ("name '" +:+ name +:+ "' is not defined").

Definition TypeError (msg : string) : exn := Exception "TypeError" msg.

Definition load (name : string) : M value := fun _ s =>
  match globals s !! name with
  | Some v => (Returned v, s)
  | None => (Raised (NameError name), s)
  end.

Definition load_obj (name : string) : M obj :=
  v ← load name;
  match v with
  | VObj o => mret o
  | VDict _ => raise (TypeError "a library object is expected")
  end.

Definition load_dict (name : string) : M grid :=
  v ← load name;
  match v with
  | VDict g => mret g
  | VObj _ => raise (TypeError "a dict is expected")
  end.

Definition percent (fmt : string) (args : list farg) : M string :=
  match format fmt args with
  | Some line => mret line
  | None => raise (TypeError "not all arguments converted during string formatting")
  end.

(** Cell 9: [def rate_accuracy(x, y, title, *, validator, shuffle=None, n_splits) -> None] *)
Definition rate_accuracy (x y : obj) (title : string)
    (validator : Validator) (shuffle : option bool) (n_splits : Z) : M unit :=
  random_forest ← lib_call RandomForestClassifier;
  validator_initialized ← lib_call (construct validator [("n_splits", PInt n_splits)]);
  validator_initialized ←
    (if truthy shuffle
     then lib_call (construct validator
            [("n_splits", PInt n_splits); ("shuffle", PBool true); ("random_state", PInt 52)])
     else mret validator_initialized);
  kfold_score ← lib_call (cross_val_score random_forest x y validator_initialized "accuracy");
  mean ← lib_call (ndarray_mean kfold_score);
  std ← lib_call (ndarray_std kfold_score);
  line ← percent "%s: %0.2f (+/- %0.2f)" [FStr title; FFloat mean; FFloat (std * 2)%float];
  print line.

(** Cell 5 *)
Definition cell5 : M unit :=
  iris ← lib_call (read_csv "../datasets/iris.csv");
  assign "iris" (VObj iris);;
  iris ← load_obj "iris";
  preview ← lib_call (DataFrame_head iris);
  display (ShowObj preview).

(** Cell 7: [x_iris, y_iris = iris.iloc[:, 1:-1], iris.iloc[:, -1]] *)
Definition cell7 : M unit :=
  iris ← load_obj "iris";
  features ← lib_call (DataFrame_iloc iris (Slice None None) (Slice (Some 1) (Some (-1))));
  iris ← load_obj "iris";
  labels ← lib_call (DataFrame_iloc iris (Slice None None) (At (-1)));
  assign "x_iris" (VObj features);;
  assign "y_iris" (VObj labels).

(** A call [rate_accuracy(x_iris, y_iris, title, ...)] from a cell. *)
Definition rate_iris (title : string) (validator : Validator)
    (shuffle : option bool) (n_splits : Z) : M unit :=
  x_iris ← load_obj "x_iris";
  y_iris ← load_obj "y_iris";
  rate_accuracy x_iris y_iris title validator shuffle n_splits.

(** Cell 9, after the definition of [rate_accuracy] *)
Definition cell9 : M unit :=
  rate_iris "K-Fold accuracy" KFold (Some true) 5.

(** Cell 11 *)
Definition cell11 : M unit :=
  rate_iris "K-Fold accuracy with 15 splits" KFold (Some true) 15;;
  rate_iris "K-Fold accuracy with 10 splits" KFold (Some true) 10;;
  rate_iris "K-Fold accuracy with 3 splits" KFold (Some true) 3.

(** Cell 14 *)
Definition cell14 : M unit :=
  rate_iris "Stratified K-Fold accuracy with 15 splits" StratifiedKFold (Some true) 15;;
  rate_iris "Stratified K-Fold accuracy with 10 splits" StratifiedKFold (Some true) 10;;
  rate_iris "Stratified K-Fold accuracy with 3 splits" StratifiedKFold (Some true) 3.

(** Cell 17: [shuffle] is omitted *)
Definition cell17 : M unit :=
  rate_iris "Stratified Shuffle Split accuracy with 15 splits" StratifiedShuffleSplit None 15;;
  rate_iris "Stratified Shuffle Split accuracy with 10 splits" StratifiedShuffleSplit None 10;;
  rate_iris "Stratified Shuffle Split accuracy with 3 splits" StratifiedShuffleSplit None 3.

(** The dict literal of cell 20 *)
Definition parameters_grid : grid :=
  [ ("n_estimators", [PInt 10; PInt 100; PInt 1000]);
    ("criterion", [PStr "gini"; PStr "entropy"; PStr "log_loss"]);
    ("max_depth", [PInt 10; PInt 100; PNone]);
    ("min_samples_split", [PInt 2; PInt 4; PInt 6]);
    ("min_samples_leaf", [PInt 1; PInt 2; PInt 3]);
    ("min_weight_fraction_leaf", [PFloat 0.1; PFloat 0.01; PFloat 0.0]) ].

(** Cell 20 *)
Definition cell20 : M unit :=
  x_iris ← load_obj "x_iris";
  y_iris ← load_obj "y_iris";
  '(x_train, x_test, y_train, y_test) ← lib_call (train_test_split x_iris y_iris 0.3 52);
  assign "x_train" (VObj x_train);;
  assign "x_test" (VObj x_test);;
  assign "y_train" (VObj y_train);;
  assign "y_test" (VObj y_test);;
  assign "parameters_grid" (VDict parameters_grid);;
  estimator ← lib_call RandomForestClassifier;
  param_grid ← load_dict "parameters_grid";
  grid_search ← lib_call (GridSearchCV estimator param_grid);
  assign "grid_search" (VObj grid_search);;
  grid_search ← load_obj "grid_search";
  x_train ← load_obj "x_train";
  y_train ← load_obj "y_train";
  lib_call (GridSearchCV_fit grid_search x_train y_train);;
  grid_search ← load_obj "grid_search";
  best ← lib_call (GridSearchCV_best_params_ grid_search);
  display (ShowParams best).

(** Cell 22 *)
Definition cell22 : M unit :=
  grid_search ← load_obj "grid_search";
  x_test ← load_obj "x_test";
  y_test ← load_obj "y_test";
  accuracy ← lib_call (GridSearchCV_score grid_search x_test y_test);
  display (ShowFloat accuracy).

(** The code cells, top to bottom. *)
Definition notebook : M unit :=
  cell5;; cell7;; cell9;; cell11;; cell14;; cell17;; cell20;; cell22.

(** A fresh kernel: no variable is bound and nothing has happened. *)
Definition fresh (w : W) : state := State ∅ w [].

Definition run {A} (lib : library) (m : M A) (s : state) : outcome A * state :=
  m lib s.

End Program.

(** ** Reference semantics of the library calls

    What pandas, numpy and scikit-learn do on the calls above, as their
    documentation describes it.  Model fitting and random generation are
    not reconstructed: they are read from an [oracle]. *)

Module Lib.

(** *** pandas *)

Inductive cell : Type :=
| CInt (z : Z)
| CFloat (x : float)
| CStr (s : string).

(** A data frame, column by column, with the labels of its rows. *)
Record frame : Type := Frame {
  index : list Z;
  columns : list (string * list cell);
}.

Record series : Type := Series {
  s_name : string;
  s_index : list Z;
  s_values : list cell;
}.

Definition nrows (f : frame) : nat := length (index f).

(** Every column has one cell per row. *)
Definition well_formed (f : frame) : Prop :=
  Forall (fun c => length c.2 = nrows f) (columns f).

(** The cells of row [i], left to right. *)
Definition row (f : frame) (i : nat) : list (option cell) :=
  (fun c => c.2 !! i) <$> columns f.

(** A slice bound [i] on a sequence of length [n]: a negative bound counts
    from the end, and bounds are clipped to the sequence. *)
Definition clip (n : Z) (i : Z) : Z :=
  if (i <? 0)%Z then Z.max 0 (i + n) else Z.min i n.

(** [l[start:stop]] *)
Definition py_slice {A} (l : list A) (start stop : option Z) : list A :=
  let n := Z.of_nat (length l) in
  let lo := from_option (clip n) 0 start in
  let hi := from_option (clip n) n stop in
  drop (Z.to_nat lo) (take (Z.to_nat hi) l).

(** [l[i]]: [None] stands for [IndexError]. *)
Definition py_at {A} (l : list A) (i : Z) : option A :=
  let n := Z.of_nat (length l) in
  let j := if (i <? 0)%Z then i + n else i in
  if (0 <=? j)%Z && (j <? n)%Z then l !! Z.to_nat j else None.

(** [f.iloc[start:stop, ...]] keeps the rows of the slice in every column. *)
Definition slice_rows (f : frame) (start stop : option Z) : frame :=
  Frame (py_slice (index f) start stop)
        ((fun c => (c.1, py_slice c.2 start stop)) <$> columns f).

(** [f.head()]: the first five rows. *)
Definition head (f : frame) : frame := slice_rows f None (Some 5).

(** The rows at the given positions; [None] stands for [IndexError]. *)
Definition take_rows {A} (l : list A) (positions : list nat) : option (list A) :=
  mapM (fun i => l !! i) positions.

Definition frame_rows (f : frame) (positions : list nat) : option frame :=
  idx ← take_rows (index f) positions;
  cols ← mapM (fun c => pair c.1 <$> take_rows c.2 positions) (columns f);
  Some (Frame idx cols).

Definition series_rows (s : series) (positions : list nat) : option series :=
  idx ← take_rows (s_index s) positions;
  vals ← take_rows (s_values s) positions;
  Some (Series (s_name s) idx vals).

(** *** numpy *)

Definition of_nat (n : nat) : float := PrimFloat.of_uint63 (Uint63.of_Z (Z.of_nat n)).

Definition sum (a : list float) : float := foldl PrimFloat.add 0%float a.

(** [a.mean()] *)
Definition mean (a : list float) : float := (sum a / of_nat (length a))%float.

(** [a.std()]: the square root of the mean squared deviation from the mean. *)
Definition std (a : list float) : float :=
  let m := mean a in
  PrimFloat.sqrt (mean ((fun x => ((x - m) * (x - m))%float) <$> a)).

(** [math.ceil]: [None] for infinities and NaN. *)
Definition ceil (x : float) : option Z :=
  match Prim2SF x with
  | S754_zero _ => Some 0
  | S754_finite s m e =>
      let n := if s then Z.neg m else Z.pos m in
      Some (if (0 <=? e)%Z then n * 2 ^ e else - ((- n) / 2 ^ (- e)))
  | S754_infinity _ | S754_nan => None
  end.

(** *** scikit-learn *)

Record splitter : Type := Splitter {
  sp_class : Validator;
  sp_n_splits : Z;
  sp_shuffle : bool;
  sp_random_state : option Z;
}.

Inductive pyobj : Type :=
| ODataFrame (f : frame)
| OSeries (s : series)
| OForest
| OSplitter (sp : splitter)
| ONdArray (a : list float)
| OSearch (estimator : obj) (param_grid : grid) (best : option params).

(** The state of the libraries: the objects they created, the next free
    reference, and the state of numpy's global random generator. *)
Record store : Type := Store {
  heap : gmap N pyobj;
  next : N;
  rng : Z;
}.

(** Where a shuffle takes its randomness from: nowhere when nothing is
    shuffled, a generator of its own for an integer seed, numpy's global
    generator (in its current state) otherwise. *)
Inductive source : Type :=
| Unshuffled
| Seeded (seed : Z)
| Global (state : Z).

(** [check_random_state(random_state)], given the state of the global
    generator. *)
Definition check_random_state (random_state : option Z) (g : Z) : source :=
  match random_state with
  | Some seed => Seeded seed
  | None => Global g
  end.

(** What the reference semantics does not compute. *)
Record oracle : Type := Oracle {
  (** the table a CSV file parses to, if the file exists *)
  files : string -> option frame;
  (** a permutation of [n] positions drawn from a generator *)
  permutation : source -> nat -> list nat;
  (** the train and test positions of every fold of a splitter *)
  folds : source -> splitter -> frame -> series -> list (list nat * list nat);
  (** the accuracy of a fresh forest fitted on the train positions of a
      fold and scored on its test positions, given the state of the
      global generator *)
  fold_accuracy : Z -> frame -> series -> list nat * list nat -> float;
  (** the mean cross-validated accuracy of a forest with the given
      hyperparameters *)
  candidate_accuracy : Z -> params -> frame -> series -> float;
  (** the accuracy on held-out data of the forest refitted with the given
      hyperparameters *)
  test_accuracy : Z -> params -> frame -> series -> float;
}.

Definition ValueError (msg : string) : exn := Exception "ValueError" msg.
Definition IndexError (msg : string) : exn := Exception "IndexError" msg.
Definition AttributeError (msg : string) : exn := Exception "AttributeError" msg.
Definition FileNotFoundError (path : string) : exn :=
  Exception "FileNotFoundError" ("No such file or directory: '" +:+ path +:+ "'").
Definition NotFittedError : exn :=
  Exception "NotFittedError" "This GridSearchCV instance is not fitted yet.".

Definition alloc (o : pyobj) (w : store) : outcome obj * store :=
  (Returned (next w), Store (<[next w := o]> (heap w)) (next w + 1)%N (rng w)).

Definition fail {A} (e : exn) (w : store) : outcome A * store := (Raised e, w).

(** Consuming randomness from the global generator. *)
Definition draw (w : store) : store := Store (heap w) (next w) (rng w + 1).

(** [df.iloc[rows, cols]] with a slice of rows: a frame for a slice of
    columns, a series for a single column. *)
Definition iloc (f : frame) (rows : indexer) (cols : indexer) : outcome pyobj :=
  match rows, cols with
  | Slice r0 r1, Slice c0 c1 =>
      let f' := slice_rows f r0 r1 in
      Returned (ODataFrame (Frame (index f') (py_slice (columns f') c0 c1)))
  | Slice r0 r1, At i =>
      let f' := slice_rows f r0 r1 in
      match py_at (columns f') i with
      | Some c => Returned (OSeries (Series c.1 (index f') c.2))
      | None => Raised (IndexError "single positional indexer is out-of-bounds")
      end
  | At _, _ =>
      Raised (Exception "NotImplementedError" "selecting one row is outside this model")
  end.

(** The keyword arguments a splitter class accepts, with their defaults
    filled in; a keyword the class does not have is a [TypeError]. *)
Fixpoint bind_kwargs (v : Validator) (kw : kwargs) (sp : splitter) : outcome splitter :=
  match kw with
  | [] => Returned sp
  | ("n_splits", PInt n) :: kw' =>
      bind_kwargs v kw' (Splitter (sp_class sp) n (sp_shuffle sp) (sp_random_state sp))
  | ("random_state", PInt seed) :: kw' =>
      bind_kwargs v kw' (Splitter (sp_class sp) (sp_n_splits sp) (sp_shuffle sp) (Some seed))
  | ("random_state", PNone) :: kw' =>
      bind_kwargs v kw' (Splitter (sp_class sp) (sp_n_splits sp) (sp_shuffle sp) None)
  | ("shuffle", PBool b) :: kw' =>
      match v with
      | KFold | StratifiedKFold =>
          bind_kwargs v kw' (Splitter (sp_class sp) (sp_n_splits sp) b (sp_random_state sp))
      | StratifiedShuffleSplit =>
          Raised (TypeError "__init__() got an unexpected keyword argument 'shuffle'")
      end
  | (name, _) :: _ =>
      Raised (TypeError ("__init__() got an unexpected or ill-typed keyword argument '"
                         +:+ name +:+ "'"))
  end.

(** Calling a splitter class with keyword arguments: a [KFold] or a
    [StratifiedKFold] needs at least two folds and takes a seed only when
    it shuffles; a [StratifiedShuffleSplit] always shuffles. *)
Definition new_splitter (v : Validator) (kw : kwargs) : outcome splitter :=
  let defaults :=
    match v with
    | KFold | StratifiedKFold => Splitter v 5 false None
    | StratifiedShuffleSplit => Splitter v 10 true None
    end in
  match bind_kwargs v kw defaults with
  | Raised e => Raised e
  | Returned sp =>
      match v with
      | KFold | StratifiedKFold =>
          if (sp_n_splits sp <=? 1)%Z then
            Raised (ValueError "k-fold cross-validation requires at least one train/test split")
          else if negb (sp_shuffle sp) && bool_decide (is_Some (sp_random_state sp)) then
            Raised (ValueError "Setting a random_state has no effect since shuffle is False")
          else Returned sp
      | StratifiedShuffleSplit => Returned sp
      end
  end.

(** The train and test positions of [train_test_split]: the first
    [n_test] entries of the seeded permutation are the test rows, the
    following [n_train] the training rows. *)
Definition split_positions (perm : list nat) (n_test n_train : nat) : list nat * list nat :=
  (take n_train (drop n_test perm), take n_test perm).

(** [train_test_split(x, y, test_size=..., random_state=...)] on a frame
    and a series. *)
Definition split_frames (perm : list nat) (x : frame) (y : series) (test_size : float)
    : outcome (frame * frame * series * series) :=
  if negb (bool_decide (nrows x = length (s_values y))) then
    Raised (ValueError "Found input variables with inconsistent numbers of samples")
  else
    match ceil (test_size * of_nat (nrows x))%float with
    | None => Raised (ValueError "test_size is not a number")
    | Some n_test =>
        let n_train := (Z.of_nat (nrows x) - n_test)%Z in
        if (n_train <=? 0)%Z || (n_test <=? 0)%Z then
          Raised (ValueError "the resulting train or test set will be empty")
        else
          let '(train, test) := split_positions perm (Z.to_nat n_test) (Z.to_nat n_train) in
          match frame_rows x train, frame_rows x test, series_rows y train, series_rows y test with
          | Some x_train, Some x_test, Some y_train, Some y_test =>
              Returned (x_train, x_test, y_train, y_test)
          | _, _, _, _ => Raised (IndexError "index out of bounds")
          end
    end.

(** [train_test_split] shuffles with the generator that [random_state]
    gives. *)
Definition train_test_frames (o : oracle) (g : Z) (x : frame) (y : series)
    (test_size : float) (random_state : Z) : outcome (frame * frame * series * series) :=
  split_frames (permutation o (check_random_state (Some random_state) g) (nrows x))
    x y test_size.

(** The generator a splitter draws from. *)
Definition splitter_source (sp : splitter) (g : Z) : source :=
  if sp_shuffle sp then check_random_state (sp_random_state sp) g else Unshuffled.

(** [cv.split(x, y)]: the folds of a splitter, given the state of the
    global generator. *)
Definition splitter_folds (o : oracle) (g : Z) (sp : splitter) (x : frame) (y : series)
    : list (list nat * list nat) :=
  folds o (splitter_source sp g) sp x y.

(** A [KFold] or [StratifiedKFold] cannot have more folds than rows. *)
Definition too_many_folds (sp : splitter) (x : frame) : bool :=
  match sp_class sp with
  | KFold | StratifiedKFold => (Z.of_nat (nrows x) <? sp_n_splits sp)%Z
  | StratifiedShuffleSplit => false
  end.

(** [sorted(param_grid.items())]: insertion by key. *)
Fixpoint insert_item (it : string * list pyval) (items : grid) : grid :=
  match items with
  | [] => [it]
  | it' :: rest =>
      if String.leb it.1 it'.1 then it :: it' :: rest else it' :: insert_item it rest
  end.

Definition sorted_items (g : grid) : grid := foldr insert_item [] g.

(** [itertools.product] of the candidate tuples, the last key varying
    fastest. *)
Fixpoint product (items : grid) : list params :=
  match items with
  | [] => [[]]
  | (name, candidates) :: rest =>
      v ← candidates; p ← product rest; [(name, v) :: p]
  end.

(** [ParameterGrid(param_grid)]: every combination, keys in sorted order. *)
Definition ParameterGrid (g : grid) : list params := product (sorted_items g).

(** The first candidate whose score no later candidate beats. *)
Fixpoint best_of {A} (score : A -> float) (best : A) (rest : list A) : A :=
  match rest with
  | [] => best
  | c :: rest' =>
      if (score best <? score c)%float then best_of score c rest' else best_of score best rest'
  end.

(** What [GridSearchCV.fit] selects: [None] when the grid has no
    combination. *)
Definition search (score : params -> float) (g : grid) : option params :=
  match ParameterGrid g with
  | [] => None
  | c :: rest => Some (best_of score c rest)
  end.

(** The object a reference points to, when it has the expected class. *)
Definition frame_at (w : store) (o : obj) : option frame :=
  match heap w !! o with Some (ODataFrame f) => Some f | _ => None end.

Definition series_at (w : store) (o : obj) : option series :=
  match heap w !! o with Some (OSeries s) => Some s | _ => None end.

Definition splitter_at (w : store) (o : obj) : option splitter :=
  match heap w !! o with Some (OSplitter sp) => Some sp | _ => None end.

Definition array_at (w : store) (o : obj) : option (list float) :=
  match heap w !! o with Some (ONdArray a) => Some a | _ => None end.

Definition is_forest (w : store) (o : obj) : bool :=
  match heap w !! o with Some OForest => true | _ => false end.

Definition bad_argument {A} (w : store) : outcome A * store :=
  fail (TypeError "an argument does not have the expected class") w.

(** The libraries as a handler of the notebook's calls. *)
Definition sklearn (o : oracle) : library (W := store) := fun c =>
  match c as c' return store -> outcome (ret c') * store with
  | read_csv path => fun w =>
      match files o path with
      | Some f => alloc (ODataFrame f) w
      | None => fail (FileNotFoundError path) w
      end
  | DataFrame_head df => fun w =>
      match frame_at w df with
      | Some f => alloc (ODataFrame (head f)) w
      | None => bad_argument w
      end
  | DataFrame_iloc df rows cols => fun w =>
      match frame_at w df with
      | Some f =>
          match iloc f rows cols with
          | Returned r => alloc r w
          | Raised e => fail e w
          end
      | None => bad_argument w
      end
  | RandomForestClassifier => alloc OForest
  | construct v kw => fun w =>
      match new_splitter v kw with
      | Returned sp => alloc (OSplitter sp) w
      | Raised e => fail e w
      end
  | cross_val_score estimator x y cv scoring => fun w =>
      match is_forest w estimator, frame_at w x, series_at w y, splitter_at w cv with
      | true, Some fx, Some sy, Some sp =>
          if negb (String.eqb scoring "accuracy") then
            fail (ValueError ("'" +:+ scoring +:+ "' is not a valid scoring value")) w
          else if too_many_folds sp fx then
            fail (ValueError "Cannot have number of splits greater than the number of samples") w
          else
            alloc (ONdArray (fold_accuracy o (rng w) fx sy <$> splitter_folds o (rng w) sp fx sy))
                  (draw w)
      | _, _, _, _ => bad_argument w
      end
  | ndarray_mean a => fun w =>
      match array_at w a with
      | Some xs => (Returned (mean xs), w)
      | None => bad_argument w
      end
  | ndarray_std a => fun w =>
      match array_at w a with
      | Some xs => (Returned (std xs), w)
      | None => bad_argument w
      end
  | train_test_split x y test_size random_state => fun w =>
      match frame_at w x, series_at w y with
      | Some fx, Some sy =>
          match train_test_frames o (rng w) fx sy test_size random_state with
          | Returned (x_train, x_test, y_train, y_test) =>
              let '(_, w1) := alloc (ODataFrame x_train) w in
              let '(_, w2) := alloc (ODataFrame x_test) w1 in
              let '(_, w3) := alloc (OSeries y_train) w2 in
              let '(_, w4) := alloc (OSeries y_test) w3 in
              (Returned (next w, next w1, next w2, next w3), w4)
          | Raised e => fail e w
          end
      | _, _ => bad_argument w
      end
  | GridSearchCV estimator param_grid => fun w =>
      if is_forest w estimator then alloc (OSearch estimator param_grid None) w
      else bad_argument w
  | GridSearchCV_fit gs x y => fun w =>
      match heap w !! gs, frame_at w x, series_at w y with
      | Some (OSearch estimator g _), Some fx, Some sy =>
          match search (fun p => candidate_accuracy o (rng w) p fx sy) g with
          | Some best =>
              (Returned gs,
               Store (<[gs := OSearch estimator g (Some best)]> (heap w)) (next w) (rng w + 1))
          | None => fail (ValueError "the parameter grid has no combination") w
          end
      | _, _, _ => bad_argument w
      end
  | GridSearchCV_best_params_ gs => fun w =>
      match heap w !! gs with
      | Some (OSearch _ _ (Some best)) => (Returned best, w)
      | Some (OSearch _ _ None) =>
          fail (AttributeError "'GridSearchCV' object has no attribute 'best_params_'") w
      | _ => bad_argument w
      end
  | GridSearchCV_score gs x y => fun w =>
      match heap w !! gs, frame_at w x, series_at w y with
      | Some (OSearch _ _ (Some best)), Some fx, Some sy =>
          (Returned (test_accuracy o (rng w) best fx sy), w)
      | Some (OSearch _ _ None), Some _, Some _ => fail NotFittedError w
      | _, _, _ => bad_argument w
      end
  end.

(** A kernel in which nothing has been created yet. *)
Definition boot (seed : Z) : store := Store ∅ 0%N seed.

(** What an object created so far holds. *)
Definition content (w : store) (o : obj) : option pyobj :=
  if decide (o < next w)%N then heap w !! o else None.

End Lib.

(** ** A concrete setting

    A small table in the format of the iris data and fixed answers for
    the oracle, to run the notebook on. *)

Module Demo.
Import Lib.

(** A table with the columns of [iris.csv] and sixteen rows for each of
    the three species; the measurements are made up. *)
Definition species (i : nat) : string :=
  match (i / 16)%nat with
  | 0%nat => "Iris-setosa"
  | 1%nat => "Iris-versicolor"
  | _ => "Iris-virginica"
  end.

Definition measure (base : float) (i : nat) : cell :=
  CFloat (base + of_nat (i / 16) + of_nat (i mod 16) / 16)%float.

Definition iris_csv : frame :=
  let rows := seq 0 48 in
  Frame (Z.of_nat <$> rows)
    [ ("Id", (fun i => CInt (Z.of_nat i + 1)) <$> rows);
      ("SepalLengthCm", measure 4.5 <$> rows);
      ("SepalWidthCm", measure 2.5 <$> rows);
      ("PetalLengthCm", measure 1.5 <$> rows);
      ("PetalWidthCm", measure 0.25 <$> rows);
      ("Species", (fun i => CStr (species i)) <$> rows) ].

(** The offset that stands for a generator. *)
Definition offset (src : source) : Z :=
  match src with
  | Unshuffled => 0
  | Seeded seed => seed
  | Global state => state
  end.

(** A rotation of the positions by the offset. *)
Definition rotation (src : source) (n : nat) : list nat :=
  (fun i => Z.to_nat ((Z.of_nat i + offset src) mod Z.of_nat n)) <$> seq 0 n.

(** The rows dealt to the folds in turn, starting at the offset. *)
Definition dealt (src : source) (sp : splitter) (x : frame) (y : series)
    : list (list nat * list nat) :=
  let k := sp_n_splits sp in
  (fun j =>
     let in_fold i := ((Z.of_nat i + offset src) mod k =? Z.of_nat j)%Z in
     (List.filter (fun i => negb (in_fold i)) (seq 0 (nrows x)),
      List.filter in_fold (seq 0 (nrows x))))
  <$> seq 0 (Z.to_nat k).

(** One test row is missed in every other fold. *)
Definition one_miss (g : Z) (fold : list nat * list nat) : float :=
  let n := length fold.2 in
  let missed := if Z.even (g + Z.of_nat (default 0%nat (fold.2 !! 0%nat))) then 0%nat else 1%nat in
  (of_nat (n - missed) / of_nat n)%float.

(** The accuracy the oracle gives a forest with [n_estimators] trees. *)
Definition by_estimators (p : params) : float :=
  match p.*2 !! 5%nat with
  | Some (PInt 10) => 0.875
  | Some (PInt 100) => 0.9375
  | _ => 0.5
  end.

Definition oracle0 : oracle := {|
  files path := if String.eqb path "../datasets/iris.csv" then Some iris_csv else None;
  permutation := rotation;
  folds := dealt;
  fold_accuracy g _ _ fold := one_miss g fold;
  candidate_accuracy _ p _ _ := by_estimators p;
  test_accuracy _ p _ _ := by_estimators p;
|}.

Definition lib0 : library := sklearn oracle0.

(** The kernel after cells 5 and 7: the data is loaded, object 2 holds
    the features and object 3 the labels. *)
Definition loaded : state := (run lib0 (cell5 ;; cell7) (fresh (boot 0))).2.

(** The kernel after the whole notebook. *)
Definition finished : state := (run lib0 notebook (fresh (boot 0))).2.

(** The features and the labels of the table. *)
Definition features : frame :=
  Frame (index iris_csv) (py_slice (columns iris_csv) (Some 1) (Some (-1))).

Definition labels : series :=
  Series "Species" (index iris_csv) ((fun i => CStr (species i)) <$> seq 0 48).

End Demo.

(** ** Reading a trace *)

(** The exception a library call ended with, if it did. *)
Definition failure (ev : event) : option exn :=
  match ev with
  | Called _ (Raised e) => Some e
  | _ => None
  end.

Definition succeeded (ev : event) : Prop := failure ev = None.

(** The lines written by [print]. *)
Definition printed (tr : list event) : list string :=
  omap (fun ev => match ev with Printed line => Some line | _ => None end) tr.

(** What reached the console: printed lines and displayed values. *)
Definition is_output (ev : event) : bool :=
  match ev with
  | Called _ _ => false
  | Printed _ | Displayed _ => true
  end.

Definition outputs (tr : list event) : list event := filter is_output tr.

(** The calls made, without their results. *)
Definition calls (tr : list event) : list call :=
  omap (fun ev => match ev with Called c _ => Some c | _ => None end) tr.

(** The paths given to [read_csv]. *)
Definition files_read (tr : list event) : list string :=
  omap (fun c => match c with read_csv path => Some path | _ => None end) (calls tr).

(** The splitter classes called, each with its keyword arguments. *)
Definition constructions (tr : list event) : list (Validator * kwargs) :=
  omap (fun c => match c with construct v kw => Some (v, kw) | _ => None end) (calls tr).

(** The value of keyword [name] among keyword arguments. *)
Definition keyword (name : string) (kw : kwargs) : option pyval :=
  (fun hit => hit.2.2) <$> list_find (fun it => it.1 = name) kw.

Definition is_construction (ev : event) : bool :=
  match ev with
  | Called (construct _ _) _ => true
  | _ => false
  end.

(** The events other than the construction of splitters. *)
Definition besides_splitters (tr : list event) : list event :=
  filter (fun ev => negb (is_construction ev)) tr.

(** The events that construct splitters. *)
Definition splitters_built (tr : list event) : list event := filter is_construction tr.

#[global] Instance Validator_eq_dec : EqDecision Validator.
Proof. solve_decision. Defined.

(** For each call of [cross_val_score], the class and the keyword
    arguments of the splitter it was given: the splitter built last
    before the call, when that is the object passed as [cv]. *)
Fixpoint scored_from (last : option (obj * Validator * kwargs)) (tr : list event)
    : list (Validator * kwargs) :=
  match tr with
  | [] => []
  | Called (construct v kw) (Returned o) :: tr' => scored_from (Some (o, v, kw)) tr'
  | Called (cross_val_score _ _ _ cv _) _ :: tr' =>
      match last with
      | Some (o, v, kw) =>
          if decide (o = cv) then (v, kw) :: scored_from last tr' else scored_from last tr'
      | None => scored_from last tr'
      end
  | _ :: tr' => scored_from last tr'
  end.

Definition scored_splitters (tr : list event) : list (Validator * kwargs) :=
  scored_from None tr.

(** The class and the fold count of every splitter given to
    [cross_val_score]. *)
Definition rated (tr : list event) : list (Validator * option pyval) :=
  (fun '(v, kw) => (v, keyword "n_splits" kw)) <$> scored_splitters tr.

(** The calls of [train_test_split]. *)
Definition is_split (c : call) : bool :=
  match c with
  | train_test_split _ _ _ _ => true
  | _ => false
  end.

Definition splits (tr : list event) : list call := filter is_split (calls tr).

(** What [rate_accuracy] passes when [shuffle] is true. *)
Definition seeded (n_splits : Z) : kwargs :=
  [("n_splits", PInt n_splits); ("shuffle", PBool true); ("random_state", PInt 52)].

(** ** Running a computation *)

Section Running.

Context {W : Type}.
Implicit Types (lib : library (W := W)) (s : state (W := W)).

Definition outcome_of {A} lib (m : M A) s : outcome A := (run lib m s).1.

(** The events a computation adds to the trace. *)
Definition events_of {A} lib (m : M A) s : list event :=
  drop (length (trace s)) (trace (run lib m s).2).

(** How a run ends, given the events it added: either every call
    succeeded, or the last call raised and that exception is the result. *)
Definition ends_with {A} (o : outcome A) (evs : list event) : Prop :=
  match o with
  | Returned _ => Forall succeeded evs
  | Raised e =>
      exists (pre : list event) c, evs = pre ++ [Called c (Raised e)] /\ Forall succeeded pre
  end.

(** [performs m Q]: from every state and with every library, [m] leaves
    the notebook variables alone, adds events that end as [ends_with]
    says, and when it returns [a] the events satisfy [Q a]. *)
Definition performs {A} (m : M A) (Q : A -> list event -> Prop) : Prop :=
  forall (lib : library (W := W)) s,
    exists evs w,
      (run lib m s).2 = State (globals s) w (trace s ++ evs)
      /\ ends_with (run lib m s).1 evs
      /\ match (run lib m s).1 with
         | Returned a => Q a evs
         | Raised _ => True
         end.

(** A run is orderly when a failed library call is the last thing that
    happened and its exception is the result of the run; an exception of
    the interpreter itself (an unbound name) comes with no failed call. *)
Definition orderly {A} (o : outcome A) (evs : list event) : Prop :=
  match o with
  | Returned _ => Forall succeeded evs
  | Raised e => Forall succeeded evs \/ ends_with (Raised (A := A) e) evs
  end.

Definition propagates {A} (m : M A) : Prop :=
  forall (lib : library (W := W)) s,
    exists evs, trace (run lib m s).2 = trace s ++ evs /\ orderly (run lib m s).1 evs.

(** What [m] does to the library state [w], seen from a kernel in which
    nothing else has happened. *)
Definition eval {A} (lib : library (W := W)) (m : M A) (w : W) : outcome A * W * list event :=
  let '(o, s') := run lib m (fresh w) in (o, world s', trace s').

(** [m] neither reads nor writes the notebook variables and the trace:
    it does what it would do in a fresh kernel with the same library
    state, and leaves the variables as they were. *)
Definition stateless {A} (m : M A) : Prop :=
  forall (lib : library (W := W)) s,
    run lib m s =
    let '(o, w, evs) := eval lib m (world s) in (o, State (globals s) w (trace s ++ evs)).

End Running.

(** ** Side effects on library objects *)

(** The calls that change an object they are given: [fit] stores what it
    found in the search object. *)
Definition mutating (c : call) : bool :=
  match c with
  | GridSearchCV_fit _ _ _ => true
  | _ => false
  end.

(** The library's side of the frame: a call that is not [mutating] leaves
    every existing object as it was ([content w o] is what object [o]
    holds in library state [w]). *)
Definition frame_contract {W D : Type} (lib : library (W := W))
    (content : W -> obj -> option D) : Prop :=
  forall c w o d,
    mutating c = false -> content w o = Some d -> content (lib c w).2 o = Some d.

(** [m] leaves every existing object as it was. *)
Definition keeps {W D A : Type} (lib : library (W := W))
    (content : W -> obj -> option D) (m : M A) : Prop :=
  forall s o d,
    content (world s) o = Some d -> content (world (run lib m s).2) o = Some d.

(** ** The events of a run that reaches its end *)

(** What the library answered during one call of [rate_accuracy] that
    ran to its end. *)
Record rating : Type := Rating {
  r_forest : obj;
  r_first : obj;
  r_splitter : obj;
  r_scores : obj;
  r_mean : float;
  r_std : float;
}.

(** The events of one call of [rate_accuracy] that ran to its end. *)
Definition rating_events (x y : obj) (title : string) (validator : Validator)
    (shuffle : option bool) (n_splits : Z) (r : rating) : list event :=
  [ Called RandomForestClassifier (Returned (r_forest r));
    Called (construct validator [("n_splits", PInt n_splits)]) (Returned (r_first r)) ]
  ++ (if truthy shuffle
      then [ Called (construct validator
               [("n_splits", PInt n_splits); ("shuffle", PBool true); ("random_state", PInt 52)])
               (Returned (r_splitter r)) ]
      else [])
  ++ [ Called (cross_val_score (r_forest r) x y (r_splitter r) "accuracy") (Returned (r_scores r));
       Called (ndarray_mean (r_scores r)) (Returned (r_mean r));
       Called (ndarray_std (r_scores r)) (Returned (r_std r));
       Printed (title +:+ ": " +:+ format_f2 (r_mean r)
                +:+ " (+/- " +:+ format_f2 (r_std r * 2)%float +:+ ")") ].

(** The calls of [rate_accuracy] in cells 9, 11, 14 and 17, in order:
    title, splitter class, [shuffle] and [n_splits]. *)
Definition invocations : list (string * Validator * option bool * Z) :=
  [ ("K-Fold accuracy", KFold, Some true, 5);
    ("K-Fold accuracy with 15 splits", KFold, Some true, 15);
    ("K-Fold accuracy with 10 splits", KFold, Some true, 10);
    ("K-Fold accuracy with 3 splits", KFold, Some true, 3);
    ("Stratified K-Fold accuracy with 15 splits", StratifiedKFold, Some true, 15);
    ("Stratified K-Fold accuracy with 10 splits", StratifiedKFold, Some true, 10);
    ("Stratified K-Fold accuracy with 3 splits", StratifiedKFold, Some true, 3);
    ("Stratified Shuffle Split accuracy with 15 splits", StratifiedShuffleSplit, None, 15);
    ("Stratified Shuffle Split accuracy with 10 splits", StratifiedShuffleSplit, None, 10);
    ("Stratified Shuffle Split accuracy with 3 splits", StratifiedShuffleSplit, None, 3) ].

(** What the library answered during a run of the whole notebook. *)
Record session : Type := Session {
  a_iris : obj;
  a_preview : obj;
  a_features : obj;
  a_labels : obj;
  a_ratings : list rating;
  a_x_train : obj;
  a_x_test : obj;
  a_y_train : obj;
  a_y_test : obj;
  a_forest : obj;
  a_search : obj;
  a_fitted : obj;
  a_best : params;
  a_accuracy : float;
}.

(** The events of a run of the notebook that reached the end of cell 22. *)
Definition notebook_events (a : session) : list event :=
  [ Called (read_csv "../datasets/iris.csv") (Returned (a_iris a));
    Called (DataFrame_head (a_iris a)) (Returned (a_preview a));
    Displayed (ShowObj (a_preview a));
    Called (DataFrame_iloc (a_iris a) (Slice None None) (Slice (Some 1) (Some (-1))))
           (Returned (a_features a));
    Called (DataFrame_iloc (a_iris a) (Slice None None) (At (-1))) (Returned (a_labels a)) ]
  ++ concat (zip_with
       (fun '(title, validator, shuffle, n_splits) r =>
          rating_events (a_features a) (a_labels a) title validator shuffle n_splits r)
       invocations (a_ratings a))
  ++ [ Called (train_test_split (a_features a) (a_labels a) 0.3 52)
              (Returned (a_x_train a, a_x_test a, a_y_train a, a_y_test a));
       Called RandomForestClassifier (Returned (a_forest a));
       Called (GridSearchCV (a_forest a) parameters_grid) (Returned (a_search a));
       Called (GridSearchCV_fit (a_search a) (a_x_train a) (a_y_train a)) (Returned (a_fitted a));
       Called (GridSearchCV_best_params_ (a_search a)) (Returned (a_best a));
       Displayed (ShowParams (a_best a));
       Called (GridSearchCV_score (a_search a) (a_x_test a) (a_y_test a))
              (Returned (a_accuracy a));
       Displayed (ShowFloat (a_accuracy a)) ].

(** ** Selections and combinations *)

(** [x'] and [y'] hold the rows of [x] and the labels of [y] at the given
    positions, in that order. *)
Definition selected (x : Lib.frame) (y : Lib.series) (positions : list nat)
    (x' : Lib.frame) (y' : Lib.series) : Prop :=
  Lib.nrows x' = length positions
  /\ length (Lib.s_values y') = length positions
  /\ forall j i,
       positions !! j = Some i ->
       Lib.row x' j = Lib.row x i /\ Lib.s_values y' !! j = Lib.s_values y !! i.

(** [p] picks, for every parameter of the grid, one of its candidates. *)
Definition combination (g : grid) (p : params) : Prop :=
  Forall2 (fun it kv => kv.1 = it.1 /\ kv.2 ∈ it.2) (Lib.sorted_items g) p.

(** ** Laws of the monad *)

Section Laws.

Context {W : Type} (lib : library (W := W)).
Implicit Types s : state (W := W).

Lemma run_bind {A B} (m : M A) (k : A -> M B) s :
  run lib (m ≫= k) s =
  match run lib m s with
  | (Returned a, s') => run lib (k a) s'
  | (Raised e, s') => (Raised e, s')
  end.
Proof. reflexivity. Qed.

Lemma run_lib_call c s :
  run lib (lib_call c) s =
  ((lib c (world s)).1,
   State (globals s) (lib c (world s)).2 (trace s ++ [Called c (lib c (world s)).1])).
Proof. unfold run, lib_call. by destruct (lib c (world s)). Qed.

Lemma format_line title (m sd : float) :
  format "%s: %0.2f (+/- %0.2f)" [FStr title; FFloat m; FFloat sd]
  = Some (title +:+ ": " +:+ format_f2 m +:+ " (+/- " +:+ format_f2 sd +:+ ")").
Proof.
  reflexivity.
Qed.

Lemma bind_returned {A B} (m : M A) (k : A -> M B) s b s' :
  run lib (m ≫= k) s = (Returned b, s') ->
  exists a s1, run lib m s = (Returned a, s1) /\ run lib (k a) s1 = (Returned b, s').
Proof.
  rewrite run_bind. destruct (run lib m s) as [[a|e] s1]; [eauto|discriminate].
Qed.

Lemma lib_call_returned c s r s' :
  run lib (lib_call c) s = (Returned r, s') ->
  exists w, lib c (world s) = (Returned r, w)
    /\ s' = State (globals s) w (trace s ++ [Called c (Returned r)]).
Proof.
  rewrite run_lib_call. destruct (lib c (world s)) as [o w]. simpl.
  intros [= -> <-]. eauto.
Qed.

Lemma mret_returned {A} (a b : A) s s' :
  run lib (mret a) s = (Returned b, s') -> a = b /\ s' = s.
Proof. by intros [= -> ->]. Qed.

Lemma print_returned line s u s' :
  run lib (print line) s = (Returned u, s') ->
  s' = State (globals s) (world s) (trace s ++ [Printed line]).
Proof. by intros [= <-]. Qed.

Lemma display_returned v s u s' :
  run lib (display v) s = (Returned u, s') ->
  s' = State (globals s) (world s) (trace s ++ [Displayed v]).
Proof. by intros [= <-]. Qed.

Lemma assign_returned name v s u s' :
  run lib (assign name v) s = (Returned u, s') ->
  s' = State (<[name := v]> (globals s)) (world s) (trace s).
Proof. by intros [= <-]. Qed.

Lemma load_obj_returned name s o s' :
  run lib (load_obj name) s = (Returned o, s') ->
  globals s !! name = Some (VObj o) /\ s' = s.
Proof.
  unfold load_obj. rewrite run_bind. unfold run at 1, load.
  destruct (globals s !! name) as [[o'|g]|]; [|discriminate..].
  by intros [= -> ->].
Qed.

Lemma load_dict_returned name s g s' :
  run lib (load_dict name) s = (Returned g, s') ->
  globals s !! name = Some (VDict g) /\ s' = s.
Proof.
  unfold load_dict. rewrite run_bind. unfold run at 1, load.
  destruct (globals s !! name) as [[o'|g']|]; [discriminate| |discriminate].
  by intros [= -> ->].
Qed.

Lemma percent_returned title (m sd : float) s line s' :
  run lib (percent "%s: %0.2f (+/- %0.2f)" [FStr title; FFloat m; FFloat sd]) s
  = (Returned line, s') ->
  line = title +:+ ": " +:+ format_f2 m +:+ " (+/- " +:+ format_f2 sd +:+ ")" /\ s' = s.
Proof. unfold percent. rewrite format_line. by intros [= <- <-]. Qed.

(** Inversion of a run that returned, one statement at a time. *)
Ltac invert_run :=
  repeat (match goal with
  | H : run _ (_ ≫= _) _ = (Returned _, _) |- _ =>
      apply bind_returned in H as (? & ? & ? & H)
  | H : run _ (lib_call ?c) _ = (Returned _, _) |- _ =>
      apply (lib_call_returned c) in H as (? & _ & ->)
  | H : run _ (mret _) _ = (Returned _, _) |- _ =>
      apply mret_returned in H as [<- ->]
  | H : run _ (percent _ _) _ = (Returned _, _) |- _ =>
      apply percent_returned in H as [-> ->]
  | H : run _ (print _) _ = (Returned _, _) |- _ =>
      apply print_returned in H as ->
  | H : run _ (display _) _ = (Returned _, _) |- _ =>
      apply display_returned in H as ->
  | H : run _ (assign _ _) _ = (Returned _, _) |- _ =>
      apply assign_returned in H as ->
  | H : run _ (load_obj _) _ = (Returned _, _) |- _ =>
      apply load_obj_returned in H as [? ->]
  | H : run _ (load_dict _) _ = (Returned _, _) |- _ =>
      apply load_dict_returned in H as [? ->]
  end; cbn [globals world trace] in *).

Lemma rate_accuracy_returned x y title v sh n s u s' :
  run lib (rate_accuracy x y title v sh n) s = (Returned u, s') ->
  exists (r : rating) w,
    (truthy sh = false -> r_splitter r = r_first r)
    /\ s' = State (globals s) w (trace s ++ rating_events x y title v sh n r).
Proof.
  unfold rate_accuracy. intros H.
  destruct (truthy sh) eqn:Hsh; invert_run.
  - eexists (Rating _ _ _ _ _ _), _. split; [congruence|].
    unfold rating_events. rewrite Hsh. cbn [r_forest r_first r_splitter r_scores r_mean r_std].
    f_equal. rewrite <- !app_assoc. reflexivity.
  - eexists (Rating _ _ _ _ _ _), _. split; [done|].
    unfold rating_events. rewrite Hsh. cbn [r_forest r_first r_splitter r_scores r_mean r_std].
    f_equal. rewrite <- !app_assoc. reflexivity.
Qed.

Lemma rate_iris_returned x y title v sh n s u s' :
  globals s !! "x_iris" = Some (VObj x) ->
  globals s !! "y_iris" = Some (VObj y) ->
  run lib (rate_iris title v sh n) s = (Returned u, s') ->
  exists (r : rating) w,
    (truthy sh = false -> r_splitter r = r_first r)
    /\ s' = State (globals s) w (trace s ++ rating_events x y title v sh n r).
Proof.
  unfold rate_iris. intros Hx Hy H. invert_run.
  repeat match goal with
  | H1 : ?g !! ?k = Some _, H2 : ?g !! ?k = Some _ |- _ =>
      rewrite H1 in H2; injection H2 as <-
  end.
  by apply rate_accuracy_returned in H.
Qed.

Lemma cell5_returned s u s' :
  run lib cell5 s = (Returned u, s') ->
  exists iris preview w,
    s' = State (<["iris" := VObj iris]> (globals s)) w
           (trace s ++ [ Called (read_csv "../datasets/iris.csv") (Returned iris);
                         Called (DataFrame_head iris) (Returned preview);
                         Displayed (ShowObj preview) ]).
Proof.
  unfold cell5. intros H. invert_run. simplify_map_eq.
  eexists _, _, _. f_equal. rewrite <- !app_assoc. reflexivity.
Qed.

Lemma cell7_returned iris s u s' :
  globals s !! "iris" = Some (VObj iris) ->
  run lib cell7 s = (Returned u, s') ->
  exists features labels w,
    s' = State (<["y_iris" := VObj labels]> (<["x_iris" := VObj features]> (globals s))) w
           (trace s ++ [ Called (DataFrame_iloc iris (Slice None None)
                                   (Slice (Some 1) (Some (-1)))) (Returned features);
                         Called (DataFrame_iloc iris (Slice None None) (At (-1)))
                                (Returned labels) ]).
Proof.
  unfold cell7. intros Hiris H. invert_run. simplify_map_eq.
  eexists _, _, _. f_equal. rewrite <- !app_assoc. reflexivity.
Qed.

(** The same variable read twice holds the same object. *)
Ltac same_object :=
  repeat match goal with
  | H1 : ?g !! ?k = Some _, H2 : ?g !! ?k = Some _ |- _ =>
      rewrite H1 in H2; injection H2 as <-
  end.

Ltac invert_rate_iris Hx Hy :=
  repeat match goal with
  | H : run _ (rate_iris ?t ?v ?sh ?n) ?s = (Returned _, _) |- _ =>
      lazymatch type of Hx with _ = Some (VObj ?x) =>
      lazymatch type of Hy with _ = Some (VObj ?y) =>
        apply (rate_iris_returned x y t v sh n s _ _ Hx Hy) in H as (? & ? & ? & ->);
        cbn [globals world trace] in *
      end end
  end.

Lemma cell11_returned x y s u s' :
  globals s !! "x_iris" = Some (VObj x) ->
  globals s !! "y_iris" = Some (VObj y) ->
  run lib cell11 s = (Returned u, s') ->
  exists (r1 r2 r3 : rating) w,
    s' = State (globals s) w
           (trace s
            ++ rating_events x y "K-Fold accuracy with 15 splits" KFold (Some true) 15 r1
            ++ rating_events x y "K-Fold accuracy with 10 splits" KFold (Some true) 10 r2
            ++ rating_events x y "K-Fold accuracy with 3 splits" KFold (Some true) 3 r3).
Proof.
  unfold cell11. intros Hx Hy H. invert_run. invert_rate_iris Hx Hy.
  eexists _, _, _, _. f_equal. rewrite <- !app_assoc. reflexivity.
Qed.

Lemma cell14_returned x y s u s' :
  globals s !! "x_iris" = Some (VObj x) ->
  globals s !! "y_iris" = Some (VObj y) ->
  run lib cell14 s = (Returned u, s') ->
  exists (r1 r2 r3 : rating) w,
    s' = State (globals s) w
           (trace s
            ++ rating_events x y "Stratified K-Fold accuracy with 15 splits"
                 StratifiedKFold (Some true) 15 r1
            ++ rating_events x y "Stratified K-Fold accuracy with 10 splits"
                 StratifiedKFold (Some true) 10 r2
            ++ rating_events x y "Stratified K-Fold accuracy with 3 splits"
                 StratifiedKFold (Some true) 3 r3).
Proof.
  unfold cell14. intros Hx Hy H. invert_run. invert_rate_iris Hx Hy.
  eexists _, _, _, _. f_equal. rewrite <- !app_assoc. reflexivity.
Qed.

Lemma cell17_returned x y s u s' :
  globals s !! "x_iris" = Some (VObj x) ->
  globals s !! "y_iris" = Some (VObj y) ->
  run lib cell17 s = (Returned u, s') ->
  exists (r1 r2 r3 : rating) w,
    (r_splitter r1 = r_first r1 /\ r_splitter r2 = r_first r2 /\ r_splitter r3 = r_first r3)
    /\ s' = State (globals s) w
           (trace s
            ++ rating_events x y "Stratified Shuffle Split accuracy with 15 splits"
                 StratifiedShuffleSplit None 15 r1
            ++ rating_events x y "Stratified Shuffle Split accuracy with 10 splits"
                 StratifiedShuffleSplit None 10 r2
            ++ rating_events x y "Stratified Shuffle Split accuracy with 3 splits"
                 StratifiedShuffleSplit None 3 r3).
Proof.
  unfold cell17. intros Hx Hy H. invert_run. invert_rate_iris Hx Hy.
  eexists _, _, _, _. split; [|f_equal; rewrite <- !app_assoc; reflexivity]. auto.
Qed.

Lemma cell20_returned x y s u s' :
  globals s !! "x_iris" = Some (VObj x) ->
  globals s !! "y_iris" = Some (VObj y) ->
  run lib cell20 s = (Returned u, s') ->
  exists x_train x_test y_train y_test forest gs fitted best w,
    s' = State (<["grid_search" := VObj gs]>
                 (<["parameters_grid" := VDict parameters_grid]>
                   (<["y_test" := VObj y_test]> (<["y_train" := VObj y_train]>
                     (<["x_test" := VObj x_test]> (<["x_train" := VObj x_train]> (globals s)))))))
           w
           (trace s ++
            [ Called (train_test_split x y 0.3 52) (Returned (x_train, x_test, y_train, y_test));
              Called RandomForestClassifier (Returned forest);
              Called (GridSearchCV forest parameters_grid) (Returned gs);
              Called (GridSearchCV_fit gs x_train y_train) (Returned fitted);
              Called (GridSearchCV_best_params_ gs) (Returned best);
              Displayed (ShowParams best) ]).
Proof.
  unfold cell20. intros Hx Hy H. invert_run. same_object.
  match goal with p : (obj * obj * obj * obj)%type |- _ => destruct p as [[[? ?] ?] ?] end.
  invert_run. simplify_map_eq.
  eexists _, _, _, _, _, _, _, _, _. f_equal. rewrite <- !app_assoc. reflexivity.
Qed.

Lemma cell22_returned gs x_test y_test s u s' :
  globals s !! "grid_search" = Some (VObj gs) ->
  globals s !! "x_test" = Some (VObj x_test) ->
  globals s !! "y_test" = Some (VObj y_test) ->
  run lib cell22 s = (Returned u, s') ->
  exists accuracy w,
    s' = State (globals s) w
           (trace s ++ [ Called (GridSearchCV_score gs x_test y_test) (Returned accuracy);
                         Displayed (ShowFloat accuracy) ]).
Proof.
  unfold cell22. intros Hg Hx Hy H. invert_run. same_object.
  eexists _, _. f_equal. rewrite <- !app_assoc. reflexivity.
Qed.

Lemma notebook_returned w s' :
  run lib notebook (fresh w) = (Returned tt, s') ->
  exists a : session,
    length (a_ratings a) = 10%nat
    /\ Forall2 (fun '(_, _, shuffle, _) r => truthy shuffle = false -> r_splitter r = r_first r)
         invocations (a_ratings a)
    /\ trace s' = notebook_events a.
Proof.
  unfold notebook, fresh. intros H. invert_run.
  lazymatch goal with H : run _ cell5 _ = _ |- _ =>
    apply cell5_returned in H as (iris & preview & ? & ->) end.
  cbn [globals world trace] in *.
  lazymatch goal with H : run _ cell7 ?s = _ |- _ =>
    apply (cell7_returned iris s) in H as (features & labels & ? & ->);
      [|by simplify_map_eq] end.
  cbn [globals world trace] in *.
  set (g := <["y_iris" := VObj labels]> _) in *.
  assert (Hx : g !! "x_iris" = Some (VObj features)) by (by subst g; simplify_map_eq).
  assert (Hy : g !! "y_iris" = Some (VObj labels)) by (by subst g; simplify_map_eq).
  clearbody g.
  unfold cell9 in *. invert_rate_iris Hx Hy.
  lazymatch goal with r : rating |- _ => rename r into r1 end.
  lazymatch goal with H : run _ cell11 ?s = _ |- _ =>
    apply (cell11_returned features labels s _ _ Hx Hy) in H as (r2 & r3 & r4 & ? & ->) end.
  cbn [globals world trace] in *.
  lazymatch goal with H : run _ cell14 ?s = _ |- _ =>
    apply (cell14_returned features labels s _ _ Hx Hy) in H as (r5 & r6 & r7 & ? & ->) end.
  cbn [globals world trace] in *.
  lazymatch goal with H : run _ cell17 ?s = _ |- _ =>
    apply (cell17_returned features labels s _ _ Hx Hy) in H
      as (r8 & r9 & r10 & ? & (? & ? & ?) & ->) end.
  cbn [globals world trace] in *.
  lazymatch goal with H : run _ cell20 ?s = _ |- _ =>
    apply (cell20_returned features labels s _ _ Hx Hy) in H
      as (x_train & x_test & y_train & y_test & forest & gs & fitted & best & ? & ->) end.
  cbn [globals world trace] in *.
  lazymatch goal with H : run _ cell22 ?s = _ |- _ =>
    apply (cell22_returned gs x_test y_test s) in H as (accuracy & ? & ->);
      [|by simplify_map_eq..] end.
  cbn [globals world trace] in *.
  exists (Session iris preview features labels [r1; r2; r3; r4; r5; r6; r7; r8; r9; r10]
            x_train x_test y_train y_test forest gs fitted best accuracy).
  split; [reflexivity|]. split.
  - unfold invocations. cbn [a_ratings].
    repeat (constructor; [cbn; first [discriminate|intros; assumption]|]). constructor.
  - unfold notebook_events. cbn [a_iris a_preview a_features a_labels a_ratings a_x_train
      a_x_test a_y_train a_y_test a_forest a_search a_fitted a_best a_accuracy
      invocations zip_with concat].
    rewrite <- !app_assoc. reflexivity.
Qed.

End Laws.

(** ** What a computation performs *)

(** Applying a rule about [lib_call c] at the call of the goal. *)
Ltac by_call rule :=
  lazymatch goal with
  | |- _ (lib_call ?c) => apply (rule c)
  end.

Section Logic.

Context {W : Type}.
Implicit Types s : state (W := W).

Local Abbreviation performs := (performs (W := W)).
Local Abbreviation propagates := (propagates (W := W)).
Local Abbreviation stateless := (stateless (W := W)).

Lemma performs_mret {A} (a : A) : performs (mret a) (fun b evs => b = a /\ evs = []).
Proof.
  intros l s. exists [], (world s). cbn. rewrite app_nil_r.
  split; [by destruct s|]. split; [constructor|done].
Qed.

Lemma performs_lib_call c : performs (lib_call c) (fun r evs => evs = [Called c (Returned r)]).
Proof.
  intros l s. rewrite run_lib_call. destruct (l c (world s)) as [[r|e] w]; cbn.
  - eexists _, _. split; [reflexivity|]. split; [|done]. by repeat constructor.
  - eexists _, _. split; [reflexivity|]. split; [|done]. exists [], c. split; [done|constructor].
Qed.

Lemma performs_print line : performs (print line) (fun _ evs => evs = [Printed line]).
Proof.
  intros l s. eexists _, _. split; [reflexivity|]. cbn. split; [|done]. by repeat constructor.
Qed.

Lemma performs_percent title (m sd : float) :
  performs (percent "%s: %0.2f (+/- %0.2f)" [FStr title; FFloat m; FFloat sd])
    (fun line evs =>
       line = title +:+ ": " +:+ format_f2 m +:+ " (+/- " +:+ format_f2 sd +:+ ")"
       /\ evs = []).
Proof. unfold percent. rewrite format_line. apply performs_mret. Qed.

Lemma performs_bind {A B} (m : M A) (k : A -> M B) Q1 Q2 :
  performs m Q1 ->
  (forall a, performs (k a) (Q2 a)) ->
  performs (m ≫= k) (fun b evs => exists a e1 e2, evs = e1 ++ e2 /\ Q1 a e1 /\ Q2 a b e2).
Proof.
  intros Hm Hk l s. rewrite run_bind.
  destruct (Hm l s) as (e1 & w1 & Hs1 & Hend1 & HQ1).
  destruct (run l m s) as [[a|e] s1]; cbn [fst snd] in *; subst s1.
  - destruct (Hk a l (State (globals s) w1 (trace s ++ e1))) as (e2 & w2 & Hs2 & Hend2 & HQ2).
    cbn [globals world trace] in Hs2.
    exists (e1 ++ e2), w2. rewrite app_assoc. split; [done|].
    destruct (run l (k a) _) as [[b|e] s2]; cbn [fst snd] in *.
    + split; [by apply Forall_app|]. by exists a, e1, e2.
    + split; [|done]. destruct Hend2 as (pre & c & -> & Hpre).
      exists (e1 ++ pre), c. rewrite app_assoc. split; [done|]. by apply Forall_app.
  - exists e1, w1. done.
Qed.

Lemma performs_mono {A} (m : M A) (Q Q' : A -> list event -> Prop) :
  (forall a evs, Q a evs -> Q' a evs) -> performs m Q -> performs m Q'.
Proof.
  intros HQ Hm l s. destruct (Hm l s) as (evs & w & Hs & Hend & H).
  exists evs, w. split; [done|]. split; [done|].
  destruct (run l m s).1; auto.
Qed.

Lemma rate_accuracy_performs x y title v sh n :
  performs (rate_accuracy x y title v sh n)
    (fun _ evs =>
       exists r : rating,
         (truthy sh = false -> r_splitter r = r_first r)
         /\ evs = rating_events x y title v sh n r).
Proof.
  unfold rate_accuracy.
  eapply performs_mono; last first.
  { eapply performs_bind; [apply (performs_lib_call RandomForestClassifier)|]; intros forest.
    eapply performs_bind; [apply (performs_lib_call (construct _ _))|]; intros cv0.
    eapply performs_bind.
    { instantiate (1 := fun cv evs =>
        if truthy sh
        then evs = [Called (construct v [("n_splits", PInt n); ("shuffle", PBool true);
                                         ("random_state", PInt 52)]) (Returned cv)]
        else cv = cv0 /\ evs = []).
      destruct (truthy sh); [apply (performs_lib_call (construct _ _))|apply performs_mret]. }
    intros cv.
    eapply performs_bind; [apply (performs_lib_call (cross_val_score _ _ _ _ _))|]; intros scores.
    eapply performs_bind; [apply (performs_lib_call (ndarray_mean _))|]; intros m.
    eapply performs_bind; [apply (performs_lib_call (ndarray_std _))|]; intros sd.
    eapply performs_bind; [apply performs_percent|]; intros line.
    apply performs_print. }
  cbn beta. intros _ evs H.
  destruct H as (forest & ? & ? & -> & -> & H).
  destruct H as (cv0 & ? & ? & -> & -> & H).
  destruct H as (cv & e3 & ? & -> & Hcv & H).
  destruct H as (scores & ? & ? & -> & -> & H).
  destruct H as (m & ? & ? & -> & -> & H).
  destruct H as (sd & ? & ? & -> & -> & H).
  destruct H as (line & ? & ? & -> & [-> ->] & ->).
  unfold rating_events.
  destruct (truthy sh).
  - subst e3. exists (Rating forest cv0 cv scores m sd). split; [done|]. reflexivity.
  - destruct Hcv as [-> ->]. exists (Rating forest cv0 cv0 scores m sd). split; [done|]. reflexivity.
Qed.

(** *** Exceptions *)

Lemma performs_propagates {A} (m : M A) Q : performs m Q -> propagates m.
Proof.
  intros Hm l s. destruct (Hm l s) as (evs & w & Hs & Hend & _).
  exists evs. rewrite Hs. split; [done|].
  destruct (run l m s).1; [done|by right].
Qed.

Lemma propagates_silent {A} (m : M A) :
  (forall (lib : library (W := W)) s, trace (run lib m s).2 = trace s) -> propagates m.
Proof.
  intros Hm l s. exists []. rewrite app_nil_r. split; [done|].
  destruct (run l m s).1; [constructor|left; constructor].
Qed.

Lemma propagates_assign name v : propagates (assign name v).
Proof. by apply propagates_silent. Qed.

Lemma propagates_load_obj name : propagates (load_obj name).
Proof.
  apply propagates_silent. intros l s.
  unfold run, load_obj, load, mbind, M_bind, mret, M_ret, raise.
  by destruct (globals s !! name) as [[?|?]|].
Qed.

Lemma propagates_load_dict name : propagates (load_dict name).
Proof.
  apply propagates_silent. intros l s.
  unfold run, load_dict, load, mbind, M_bind, mret, M_ret, raise.
  by destruct (globals s !! name) as [[?|?]|].
Qed.

Lemma propagates_lib_call c : propagates (lib_call c).
Proof. eapply performs_propagates, performs_lib_call. Qed.

Lemma propagates_display v : propagates (display v).
Proof.
  intros l s. exists [Displayed v]. split; [done|]. by repeat constructor.
Qed.

Lemma propagates_bind {A B} (m : M A) (k : A -> M B) :
  propagates m -> (forall a, propagates (k a)) -> propagates (m ≫= k).
Proof.
  intros Hm Hk l s. rewrite run_bind.
  destruct (Hm l s) as (e1 & Ht1 & Ho1).
  destruct (run l m s) as [[a|e] s1]; cbn [fst snd] in *.
  - destruct (Hk a l s1) as (e2 & Ht2 & Ho2).
    exists (e1 ++ e2). rewrite Ht2, Ht1, app_assoc. split; [done|].
    destruct (run l (k a) s1).1 as [b|e]; cbn in *.
    + by apply Forall_app.
    + destruct Ho2 as [Hall|(pre & c & -> & Hpre)].
      * left. by apply Forall_app.
      * right. exists (e1 ++ pre), c. rewrite app_assoc. split; [done|]. by apply Forall_app.
  - by exists e1.
Qed.

(** *** Independence of the notebook state *)

Lemma stateless_mret {A} (a : A) : stateless (mret a).
Proof. intros l s. cbn. rewrite app_nil_r. by destruct s. Qed.

Lemma stateless_lib_call c : stateless (lib_call c).
Proof.
  intros l s. unfold eval. rewrite !run_lib_call. reflexivity.
Qed.

Lemma stateless_print line : stateless (print line).
Proof. by intros l s. Qed.

Lemma stateless_percent fmt args : stateless (percent fmt args).
Proof.
  intros l s. unfold percent. destruct (format fmt args); cbn; rewrite app_nil_r; by destruct s.
Qed.

Lemma stateless_bind {A B} (m : M A) (k : A -> M B) :
  stateless m -> (forall a, stateless (k a)) -> stateless (m ≫= k).
Proof.
  intros Hm Hk l s. unfold eval. rewrite !run_bind.
  rewrite (Hm l s), (Hm l (fresh (world s))). cbn [world fresh globals trace].
  destruct (eval l m (world s)) as [[[a|e] w1] e1]; [|done].
  rewrite (Hk a l (State (globals s) w1 (trace s ++ e1))), (Hk a l (State ∅ w1 ([] ++ e1))).
  cbn [world globals trace].
  destruct (eval l (k a) w1) as [[o w2] e2]. cbn. by rewrite app_assoc.
Qed.

Lemma rate_accuracy_stateless x y title v sh n : stateless (rate_accuracy x y title v sh n).
Proof.
  unfold rate_accuracy.
  apply stateless_bind; [by_call stateless_lib_call|intros forest].
  apply stateless_bind; [by_call stateless_lib_call|intros cv0].
  apply stateless_bind.
  { destruct (truthy sh); [by_call stateless_lib_call|apply stateless_mret]. }
  intros cv.
  apply stateless_bind; [by_call stateless_lib_call|intros scores].
  apply stateless_bind; [by_call stateless_lib_call|intros m].
  apply stateless_bind; [by_call stateless_lib_call|intros sd].
  apply stateless_bind; [apply stateless_percent|intros line].
  apply stateless_print.
Qed.

End Logic.

(** ** The helper [rate_accuracy] *)

Section Helper.

Context {W : Type} (lib : library (W := W)).
Implicit Types s : state (W := W).

Lemma events_of_app {A} (m : M A) s evs :
  trace (run lib m s).2 = trace s ++ evs -> events_of lib m s = evs.
Proof. unfold events_of. intros ->. by rewrite drop_app_length. Qed.

(** What one call of [rate_accuracy] does when no library call raises. *)
Lemma rate_accuracy_succeeds x y title v sh n s :
  Forall succeeded (events_of lib (rate_accuracy x y title v sh n) s) ->
  outcome_of lib (rate_accuracy x y title v sh n) s = Returned tt
  /\ exists r : rating,
       (truthy sh = false -> r_splitter r = r_first r)
       /\ events_of lib (rate_accuracy x y title v sh n) s = rating_events x y title v sh n r.
Proof.
  destruct (rate_accuracy_performs x y title v sh n lib s) as (evs & w & Hs & Hend & HQ).
  rewrite (events_of_app _ _ evs) by (by rewrite Hs). unfold outcome_of.
  destruct (run lib _ s).1 as [[]|e]; cbn in *; [done|].
  destruct Hend as (pre & c & -> & _). intros [_ Hlast]%Forall_app.
  inversion Hlast as [|? ? Hbad]. discriminate Hbad.
Qed.



(** C1, amended: when no library call raises, the one line that
    [rate_accuracy] prints shows the title, the mean of the scores
    returned by [cross_val_score] and, after [+/-], twice their standard
    deviation, each with two decimals. *)
Theorem rate_accuracy_prints_mean_and_twice_std x y title v sh n s :
  Forall succeeded (events_of lib (rate_accuracy x y title v sh n) s) ->
  exists forest cv scores m sd,
    Called (cross_val_score forest x y cv "accuracy") (Returned scores)
      ∈ events_of lib (rate_accuracy x y title v sh n) s
    /\ Called (ndarray_mean scores) (Returned m)
      ∈ events_of lib (rate_accuracy x y title v sh n) s
    /\ Called (ndarray_std scores) (Returned sd)
      ∈ events_of lib (rate_accuracy x y title v sh n) s
    /\ printed (events_of lib (rate_accuracy x y title v sh n) s)
       = [ title +:+ ": " +:+ format_f2 m +:+ " (+/- " +:+ format_f2 (sd * 2)%float +:+ ")" ].
Proof.
  intros H. destruct (rate_accuracy_succeeds _ _ _ _ _ _ _ H) as (_ & r & _ & ->).
  exists (r_forest r), (r_splitter r), (r_scores r), (r_mean r), (r_std r).
  unfold rating_events. destruct (truthy sh); (split_and!; [set_solver..|done]).
Qed.

End Helper.

(** ** Exceptions and side effects *)

Section Effects.

Context {W : Type} (lib : library (W := W)).
Implicit Types s : state (W := W).

Lemma cell20_propagates : propagates (W := W) cell20.
Proof.
  unfold cell20.
  apply propagates_bind; [apply propagates_load_obj|intros x].
  apply propagates_bind; [apply propagates_load_obj|intros y].
  apply propagates_bind; [by_call (propagates_lib_call (W := W))|intros [[[? ?] ?] ?]].
  do 5 (apply propagates_bind; [apply propagates_assign|intros _]).
  apply propagates_bind; [by_call (propagates_lib_call (W := W))|intros forest].
  apply propagates_bind; [apply propagates_load_dict|intros g].
  apply propagates_bind; [by_call (propagates_lib_call (W := W))|intros gs].
  apply propagates_bind; [apply propagates_assign|intros _].
  do 3 (apply propagates_bind; [apply propagates_load_obj|intros ?]).
  apply propagates_bind; [by_call (propagates_lib_call (W := W))|intros _].
  apply propagates_bind; [apply propagates_load_obj|intros ?].
  apply propagates_bind; [by_call (propagates_lib_call (W := W))|intros best].
  apply propagates_display.
Qed.

Lemma cell22_propagates : propagates (W := W) cell22.
Proof.
  unfold cell22.
  do 3 (apply propagates_bind; [apply propagates_load_obj|intros ?]).
  apply propagates_bind; [by_call (propagates_lib_call (W := W))|intros accuracy].
  apply propagates_display.
Qed.

(** With [try_except] a computation can swallow an exception: that the
    notebook propagates them is a property of its code, not of the monad. *)
Example try_except_swallows (e : exn) s :
  outcome_of lib (try_except (raise e) (fun _ => mret tt)) s = Returned tt.
Proof. reflexivity. Qed.

(** C7: in [rate_accuracy] and in the grid-search cells, an exception
    raised by a library call is the result of the run, unchanged, and the
    failed call is the last thing that happened: no call is repeated and
    nothing is called or printed in its place. *)
Theorem library_exceptions_propagate x y title v sh n (m : M unit) s ev e :
  m ∈ [rate_accuracy x y title v sh n; cell20; cell22] ->
  ev ∈ events_of lib m s ->
  failure ev = Some e ->
  outcome_of lib m s = Raised e
  /\ exists pre, events_of lib m s = pre ++ [ev] /\ Forall succeeded pre.
Proof.
  intros Hm Hev Hfail.
  assert (Hp : propagates m).
  { apply elem_of_cons in Hm as [->|Hm]; [eapply performs_propagates, rate_accuracy_performs|].
    apply elem_of_cons in Hm as [->|Hm]; [apply cell20_propagates|].
    apply list_elem_of_singleton in Hm as ->. apply cell22_propagates. }
  destruct (Hp lib s) as (evs & Ht & Ho).
  rewrite (events_of_app _ _ _ _ Ht) in *. unfold outcome_of.
  assert (Hno : Forall succeeded evs -> False).
  { intros Hall. rewrite Forall_forall in Hall. specialize (Hall _ Hev).
    unfold succeeded in Hall. congruence. }
  destruct (run lib m s).1 as [u|e']; cbn in Ho; [done|].
  destruct Ho as [?|(pre & c & -> & Hpre)]; [done|].
  apply elem_of_app in Hev as [Hev|Hev].
  - rewrite Forall_forall in Hpre. specialize (Hpre _ Hev).
    unfold succeeded in Hpre. congruence.
  - apply list_elem_of_singleton in Hev as ->. cbn in Hfail. injection Hfail as ->.
    split; [done|]. by exists pre.
Qed.

Section Frame.

Context {D : Type} (content : W -> obj -> option D).
Hypothesis lib_frame : frame_contract lib content.

Lemma keeps_mret {A} (a : A) : keeps lib content (mret a).
Proof. by intros s o d. Qed.

Lemma keeps_print line : keeps lib content (print line).
Proof. by intros s o d. Qed.

Lemma keeps_percent fmt args : keeps lib content (percent fmt args).
Proof. intros s o d. unfold percent. by destruct (format fmt args). Qed.

Lemma keeps_lib_call c : mutating c = false -> keeps lib content (lib_call c).
Proof. intros Hc s o d Ho. rewrite run_lib_call. cbn. by apply lib_frame. Qed.

Lemma keeps_bind {A B} (m : M A) (k : A -> M B) :
  keeps lib content m -> (forall a, keeps lib content (k a)) -> keeps lib content (m ≫= k).
Proof.
  intros Hm Hk s o d Ho. rewrite run_bind. specialize (Hm s o d Ho).
  destruct (run lib m s) as [[a|e] s1]; [|done]. by apply Hk.
Qed.

Lemma rate_accuracy_keeps x y title v sh n :
  keeps lib content (rate_accuracy x y title v sh n).
Proof.
  unfold rate_accuracy.
  apply keeps_bind; [by by_call keeps_lib_call|intros forest].
  apply keeps_bind; [by by_call keeps_lib_call|intros cv0].
  apply keeps_bind.
  { destruct (truthy sh); [by by_call keeps_lib_call|apply keeps_mret]. }
  intros cv.
  apply keeps_bind; [by by_call keeps_lib_call|intros scores].
  apply keeps_bind; [by by_call keeps_lib_call|intros m].
  apply keeps_bind; [by by_call keeps_lib_call|intros sd].
  apply keeps_bind; [apply keeps_percent|intros line].
  apply keeps_print.
Qed.


End Frame.

End Effects.

(** ** The notebook as a whole *)

Section Notebook.

Context {W : Type} (lib : library (W := W)).
Implicit Types s : state (W := W).

(** A run of the notebook that reached its end, with the answers of the
    library named. *)
Ltac unpack_session H :=
  apply notebook_returned in H as (a & Hlen & Hcv & ->);
  destruct a as [iris preview features labels ratings
                 x_train x_test y_train y_test forest gs fitted best accuracy];
  cbn [a_ratings] in Hlen, Hcv;
  do 10 (destruct ratings as [|[? ? ? ? ? ?] ratings]; [discriminate Hlen|]);
  destruct ratings; [|discriminate Hlen];
  unfold invocations in Hcv;
  repeat match goal with
  | H : Forall2 _ (_ :: _) (_ :: _) |- _ =>
      apply Forall2_cons_1 in H as [? H]
  end;
  cbn [truthy r_splitter r_first] in *;
  repeat match goal with
  | H : false = false -> _ |- _ => specialize (H eq_refl); subst
  | H : true = false -> _ |- _ => clear H
  end;
  clear Hlen Hcv;
  unfold notebook_events, invocations, rating_events;
  cbn [a_iris a_preview a_features a_labels a_ratings a_x_train a_x_test a_y_train a_y_test
       a_forest a_search a_fitted a_best a_accuracy r_forest r_first r_splitter r_scores
       r_mean r_std zip_with concat truthy app].

(** C4: in a run of the notebook that reaches its end, the splitters
    given to [cross_val_score] are, call after call, a [KFold] with 5, 15,
    10 and 3 folds, a [StratifiedKFold] with 15, 10 and 3 folds and a
    [StratifiedShuffleSplit] with 15, 10 and 3 folds; each of the three
    classes is built, and every splitter built is built by one of these
    ten calls. *)
Theorem splitters_exercised w s' :
  run lib notebook (fresh w) = (Returned tt, s') ->
  rated (trace s')
  = [ (KFold, Some (PInt 5)); (KFold, Some (PInt 15)); (KFold, Some (PInt 10));
      (KFold, Some (PInt 3));
      (StratifiedKFold, Some (PInt 15)); (StratifiedKFold, Some (PInt 10));
      (StratifiedKFold, Some (PInt 3));
      (StratifiedShuffleSplit, Some (PInt 15)); (StratifiedShuffleSplit, Some (PInt 10));
      (StratifiedShuffleSplit, Some (PInt 3)) ]
  /\ (forall v : Validator, v ∈ (constructions (trace s')).*1)
  /\ constructions (trace s')
     = flat_map (fun '(_, v, shuffle, n) =>
                   (v, [("n_splits", PInt n)])
                   :: (if truthy shuffle then [(v, seeded n)] else []))
                invocations.
Proof.
  intros H. unpack_session H. split; [|split].
  - unfold rated, scored_splitters. cbn [scored_from].
    rewrite !decide_True by done. reflexivity.
  - intros [| |]; cbn; set_solver.
  - reflexivity.
Qed.



End Notebook.

(** ** Facts about the reference semantics *)

Section Alignment.

Import Lib.

Lemma py_slice_all {A} (l : list A) : py_slice l None None = l.
Proof.
  unfold py_slice. cbn. rewrite Nat2Z.id, take_ge by done. done.
Qed.

Lemma py_slice_sublist {A} (P : A -> Prop) (l : list A) start stop :
  Forall P l -> Forall P (py_slice l start stop).
Proof. intros H. unfold py_slice. by apply Forall_drop, Forall_take. Qed.

Lemma slice_rows_all f : slice_rows f None None = f.
Proof.
  destruct f as [idx cols]. unfold slice_rows. cbn [index columns]. rewrite py_slice_all.
  f_equal. induction cols as [|[name vals] cols IH]; [done|].
  cbn. by rewrite py_slice_all, IH.
Qed.

Lemma py_at_elem {A} (l : list A) i a : py_at l i = Some a -> a ∈ l.
Proof.
  unfold py_at. destruct (_ && _); [|done]. apply list_elem_of_lookup_2.
Qed.

Lemma take_rows_lookup {A} (l : list A) positions l' :
  take_rows l positions = Some l' ->
  length l' = length positions
  /\ forall j i, positions !! j = Some i -> l' !! j = l !! i.
Proof.
  unfold take_rows. rewrite mapM_Some. intros H. split; [by apply Forall2_length in H|].
  intros j i Hj. destruct (Forall2_lookup_l _ _ _ _ _ H Hj) as (a & Ha & Hi). congruence.
Qed.

Lemma frame_rows_lookup x positions x' :
  frame_rows x positions = Some x' ->
  nrows x' = length positions
  /\ forall j i, positions !! j = Some i -> row x' j = row x i.
Proof.
  unfold frame_rows. intros H.
  destruct (take_rows (index x) positions) as [idx|] eqn:Hidx; [|done]. cbn in H.
  destruct (mapM _ (columns x)) as [cols|] eqn:Hcols; [|done]. cbn in H.
  injection H as <-. unfold nrows, row. cbn [index columns].
  split; [by apply take_rows_lookup in Hidx as [? _]|].
  intros j i Hj. apply mapM_Some in Hcols.
  induction Hcols as [|c c' cs cs' Hc _ IH]; [done|].
  cbn. f_equal; [|done].
  destruct (take_rows c.2 positions) as [vals|] eqn:Hvals; [|done].
  injection Hc as <-. cbn. by apply (take_rows_lookup _ _ _ Hvals).
Qed.

Lemma series_rows_lookup y positions y' :
  series_rows y positions = Some y' ->
  length (s_values y') = length positions
  /\ forall j i, positions !! j = Some i -> s_values y' !! j = s_values y !! i.
Proof.
  unfold series_rows. intros H.
  destruct (take_rows (s_index y) positions) as [idx|]; [|done]. cbn in H.
  destruct (take_rows (s_values y) positions) as [vals|] eqn:Hvals; [|done]. cbn in H.
  injection H as <-. cbn. by apply take_rows_lookup.
Qed.

Lemma split_frames_selected perm x y test_size x_train x_test y_train y_test :
  split_frames perm x y test_size = Returned (x_train, x_test, y_train, y_test) ->
  exists n_test n_train,
    selected x y (split_positions perm n_test n_train).1 x_train y_train
    /\ selected x y (split_positions perm n_test n_train).2 x_test y_test.
Proof.
  unfold split_frames. intros H.
  destruct (negb _); [done|].
  destruct (ceil _) as [n_test|]; [|done].
  destruct (_ || _); [done|].
  set (n_train := (Z.of_nat (nrows x) - n_test)%Z) in *.
  exists (Z.to_nat n_test), (Z.to_nat n_train).
  destruct (split_positions perm _ _) as [train test]. cbn [fst snd].
  destruct (frame_rows x train) as [xa|] eqn:Hxa; [|done].
  destruct (frame_rows x test) as [xb|] eqn:Hxb; [|done].
  destruct (series_rows y train) as [ya|] eqn:Hya; [|done].
  destruct (series_rows y test) as [yb|] eqn:Hyb; [|done].
  injection H as <- <- <- <-.
  apply frame_rows_lookup in Hxa as [? Hxa], Hxb as [? Hxb].
  apply series_rows_lookup in Hya as [? Hya], Hyb as [? Hyb].
  split; (split; [done|split; [done|]]); intros j i Hj; split; auto.
Qed.

Lemma iloc_features_and_labels f x y :
  well_formed f ->
  iloc f (Slice None None) (Slice (Some 1) (Some (-1))) = Returned (ODataFrame x) ->
  iloc f (Slice None None) (At (-1)) = Returned (OSeries y) ->
  nrows x = nrows f /\ length (s_values y) = nrows f /\ s_index y = index x /\ well_formed x.
Proof.
  unfold iloc. rewrite slice_rows_all. intros Hf [= <-].
  destruct (py_at (columns f) (-1)) as [c|] eqn:Hc; [|done]. intros [= <-].
  cbn. split_and!; [done| |done|].
  - apply py_at_elem in Hc. unfold well_formed in Hf. rewrite Forall_forall in Hf. by apply Hf.
  - unfold well_formed. cbn. by apply py_slice_sublist.
Qed.

End Alignment.

(** *** The order on floats *)

Section FloatOrder.

Ltac compare_cases :=
  repeat match goal with
  | H : context [Z.compare ?a ?b] |- _ => destruct (Z.compare_spec a b); cbn in H
  | |- context [Z.compare ?a ?b] => destruct (Z.compare_spec a b); cbn
  | H : context [Pos.compare ?a ?b] |- _ => destruct (Pos.compare_spec a b); cbn in H
  | |- context [Pos.compare ?a ?b] => destruct (Pos.compare_spec a b); cbn
  end.

Lemma SFltb_trans a b c : SFltb a b = true -> SFltb b c = true -> SFltb a c = true.
Proof.
  unfold SFltb, SFcompare.
  destruct a as [[]|[]| |[] ma ea], b as [[]|[]| |[] mb eb], c as [[]|[]| |[] mc ec];
    try done;
    change (Pos.compare_cont Eq) with Pos.compare;
    intros H1 H2; compare_cases; try done; try lia.
Qed.

Lemma SFltb_irrefl a : SFltb a a = false.
Proof.
  unfold SFltb, SFcompare. destruct a as [[]|[]| |[] m e]; try done;
    change (Pos.compare_cont Eq) with Pos.compare;
    rewrite Z.compare_refl, Pos.compare_refl; done.
Qed.

Lemma float_ltb_trans (x y z : float) :
  (x <? y)%float = true -> (y <? z)%float = true -> (x <? z)%float = true.
Proof. rewrite !ltb_spec. apply SFltb_trans. Qed.

Lemma float_ltb_irrefl (x : float) : (x <? x)%float = false.
Proof. rewrite ltb_spec. apply SFltb_irrefl. Qed.

End FloatOrder.

(** *** The grid search *)

Section Search.

Import Lib.

Lemma product_spec (items : grid) (p : params) :
  p ∈ product items <-> Forall2 (fun it kv => kv.1 = it.1 /\ kv.2 ∈ it.2) items p.
Proof.
  revert p. induction items as [|[name candidates] items IH]; intros p; cbn [product].
  - rewrite list_elem_of_singleton. split; [intros ->; constructor|by inversion 1].
  - rewrite list_elem_of_bind. split.
    + intros (v & Hp & Hv). apply list_elem_of_bind in Hp as (q & Hp & Hq).
      apply list_elem_of_singleton in Hp as ->. constructor; [done|by apply IH].
    + intros H. inversion H as [|? [name' v] ? q [Hname Hv] Hq]; subst. cbn in *. subst name'.
      exists v. split; [|done]. apply list_elem_of_bind. exists q.
      split; [by apply list_elem_of_singleton|by apply IH].
Qed.

Lemma ParameterGrid_spec g p : p ∈ ParameterGrid g <-> combination g p.
Proof. apply product_spec. Qed.

Lemma best_of_spec {A} (score : A -> float) b rest :
  (best_of score b rest = b \/ (score b <? score (best_of score b rest))%float = true)
  /\ best_of score b rest ∈ b :: rest
  /\ forall p, p ∈ b :: rest -> (score (best_of score b rest) <? score p)%float = false.
Proof.
  revert b. induction rest as [|c rest IH]; intros b; cbn [best_of].
  - split; [by left|]. split; [by left|].
    intros p ->%list_elem_of_singleton. apply float_ltb_irrefl.
  - destruct (score b <? score c)%float eqn:Hbc.
    + destruct (IH c) as (Hc & Hin & Hmax).
      assert (Hb : (score b <? score (best_of score c rest))%float = true).
      { destruct Hc as [->|Hc]; [done|]. by eapply float_ltb_trans. }
      split; [by right|]. split; [by right|].
      intros p [->|Hp]%elem_of_cons; [|by apply Hmax].
      destruct (score (best_of score c rest) <? score b)%float eqn:Hback; [|done].
      pose proof (float_ltb_trans _ _ _ Hb Hback) as Hbb. by rewrite float_ltb_irrefl in Hbb.
    + destruct (IH b) as (Hb & Hin & Hmax).
      split; [done|]. split.
      { apply elem_of_cons in Hin as [->|Hin]; [by left|by do 2 right]. }
      intros p [->|[->|Hp]%elem_of_cons]%elem_of_cons.
      * apply Hmax. by left.
      * destruct Hb as [->|Hb]; [done|].
        destruct (score (best_of score b rest) <? score c)%float eqn:Hrc; [|done].
        pose proof (float_ltb_trans _ _ _ Hb Hrc). congruence.
      * apply Hmax. by right.
Qed.

Lemma search_spec score g best :
  search score g = Some best ->
  best ∈ ParameterGrid g
  /\ forall p, p ∈ ParameterGrid g -> (score best <? score p)%float = false.
Proof.
  unfold search. destruct (ParameterGrid g) as [|c rest]; [done|].
  intros [= <-]. by destruct (best_of_spec score c rest) as (_ & ? & ?).
Qed.

Lemma parameters_grid_size : length (ParameterGrid parameters_grid) = 729%nat.
Proof. vm_compute. reflexivity. Qed.

End Search.

(** ** Grid search and data alignment in the notebook *)

Section Pipeline.

Context {W : Type} (lib : library (W := W)).

Ltac unpack_answers H :=
  apply notebook_returned in H as (a & Hlen & Hcv & ->);
  destruct a as [iris preview features labels ratings
                 x_train x_test y_train y_test forest gs fitted best accuracy];
  clear Hlen Hcv;
  unfold notebook_events;
  cbn [a_iris a_preview a_features a_labels a_ratings a_x_train a_x_test a_y_train a_y_test
       a_forest a_search a_fitted a_best a_accuracy].



End Pipeline.

(** ** The reference semantics keeps the frame contract *)

Section ReferenceFrame.

Import Lib.

Lemma alloc_content x w o d :
  content w o = Some d -> content (alloc x w).2 o = Some d.
Proof.
  unfold content, alloc. cbn. intros H.
  destruct (decide (o < next w)%N) as [Ho|]; [|done].
  rewrite decide_True by lia. rewrite lookup_insert_ne by lia. done.
Qed.

Lemma sklearn_frame (orc : oracle) : frame_contract (sklearn orc) content.
Proof.
  intros c w o d Hc Ho.
  destruct c; try discriminate Hc; cbn [sklearn];
    repeat case_match; cbn [fail bad_argument snd];
    repeat match goal with
    | H : alloc ?x ?w0 = (_, ?w1) |- _ =>
        assert (w1 = (alloc x w0).2) as -> by (by rewrite H); clear H
    end;
    repeat first [ assumption | apply alloc_content ].
Qed.

End ReferenceFrame.

(** ** The notebook on the table of the concrete setting *)

Section Concrete.

Import Lib Demo.

(** On this table the notebook runs to its end. *)
Lemma notebook_finishes : run lib0 notebook (fresh (boot 0)) = (Returned tt, finished).
Proof. vm_compute. reflexivity. Qed.

(** A call on the loaded data in which nothing raises. *)
Lemma five_folds_succeed :
  Forall succeeded (events_of lib0 (rate_accuracy 2 3 "K-Fold accuracy" KFold (Some true) 5) loaded).
Proof. vm_compute. repeat constructor. Qed.



(** The first call of the notebook: one line, with a mean and twice a
    standard deviation. *)
Lemma rate_accuracy_prints_witness :
  Forall succeeded (events_of lib0 (rate_accuracy 2 3 "K-Fold accuracy" KFold (Some true) 5) loaded)
  /\ exists m sd,
       printed (events_of lib0 (rate_accuracy 2 3 "K-Fold accuracy" KFold (Some true) 5) loaded)
       = [ "K-Fold accuracy" +:+ ": " +:+ format_f2 m
           +:+ " (+/- " +:+ format_f2 (sd * 2)%float +:+ ")" ].
Proof.
  split; [exact five_folds_succeed|].
  destruct (rate_accuracy_prints_mean_and_twice_std lib0 2 3 "K-Fold accuracy" KFold
              (Some true) 5 loaded five_folds_succeed)
    as (forest & cv & scores & m & sd & _ & _ & _ & H).
  by exists m, sd.
Defined.

(** C1, as stated, fails on this table: for the call with three folds
    the scores are 15/16, 15/16 and 1, the standard deviation [std()]
    returns prints as 0.03, yet the line printed shows 0.06. *)
Lemma printed_spread_is_not_the_standard_deviation :
  array_at (world finished) 19 = Some [0.9375; 0.9375; 1]%float
  /\ trace finished !! 31%nat
     = Some (Called (ndarray_std 19) (Returned (std [0.9375; 0.9375; 1]%float)))
  /\ trace finished !! 32%nat = Some (Printed "K-Fold accuracy with 3 splits: 0.96 (+/- 0.06)")
  /\ format_f2 (std [0.9375; 0.9375; 1]%float) = "0.03".
Proof. vm_compute. repeat split. Qed.

(** A call in which the library raises: [StratifiedShuffleSplit] has no
    [shuffle] argument. *)
Lemma library_exceptions_propagate_witness :
  Called (construct StratifiedShuffleSplit (seeded 3))
    (Raised (TypeError "__init__() got an unexpected keyword argument 'shuffle'"))
    ∈ events_of lib0 (rate_accuracy 2 3 "t" StratifiedShuffleSplit (Some true) 3) loaded
  /\ outcome_of lib0 (rate_accuracy 2 3 "t" StratifiedShuffleSplit (Some true) 3) loaded
     = Raised (TypeError "__init__() got an unexpected keyword argument 'shuffle'").
Proof.
  assert (Hev : Called (construct StratifiedShuffleSplit (seeded 3))
                  (Raised (TypeError "__init__() got an unexpected keyword argument 'shuffle'"))
                ∈ events_of lib0 (rate_accuracy 2 3 "t" StratifiedShuffleSplit (Some true) 3)
                    loaded).
  { vm_compute. do 2 apply list_elem_of_further. apply list_elem_of_here. }
  split; [exact Hev|].
  exact (proj1 (library_exceptions_propagate lib0 2 3 "t" StratifiedShuffleSplit
                  (Some true) 3 _ loaded _ _ (list_elem_of_here _ _) Hev eq_refl)).
Defined.


(** The run on this table builds splitters of each of the three classes. *)
Lemma splitters_exercised_witness :
  run lib0 notebook (fresh (boot 0)) = (Returned tt, finished)
  /\ forall v : Validator, v ∈ (constructions (trace finished)).*1.
Proof.
  split; [exact notebook_finishes|].
  exact (proj1 (proj2 (splitters_exercised lib0 (boot 0) finished notebook_finishes))).
Defined.






(** Every column of the table has forty-eight cells. *)
Lemma table_well_formed : well_formed iris_csv.
Proof. repeat constructor. Qed.


End Concrete.
